(** * ariba.mapping: a shallow embedding of [src/ariba/mapping.py]

    The module glues together bowtie2 and samtools.  We embed:
    - the alignment records it inspects (pysam's AlignedSegment fields that
      the code reads: [qname], [flag], [seq], [qual] and the optional tags);
    - [sam_to_fastq] and the pieces of pyfastaq it calls;
    - [get_total_alignment_score], a fold with a swallowed exception;
    - the awk filter inserted by [run_bowtie2];
    - [bowtie2_index] and [run_bowtie2] as programs in a small state and
      error monad over a file system and a log of shell command lines. *)

From Stdlib Require Import ZArith NArith Ascii String DecimalString.
From stdpp Require Import base gmap sets list strings.

Local Open Scope string_scope.
Local Notation "a +s+ b" := (String.append a b) (at level 60, right associativity).

(* ------------------------------------------------------------------ *)
(** ** Python helpers *)

(** [str(n)] of a Python int. *)
Definition py_str (n : Z) : string := NilEmpty.string_of_int (Z.to_int n).

(** [' '.join(xs)] *)
Definition py_join (xs : list string) : string := String.concat " " xs.

(** [int(a / b)] for Python ints, [b <> 0]: true division followed by a
    truncation toward zero.  For the dividend 500 used below the float
    quotient is never rounded across an integer, so this is [Z.quot]. *)
Definition py_int_true_div (a b : Z) : option Z :=
  if Z.eqb b 0 then None (* ZeroDivisionError *) else Some (Z.quot a b).

(* ------------------------------------------------------------------ *)
(** ** SAM flags, as pysam reads them *)

Module Flag.
Definition BAM_FUNMAP : N := 4.
Definition BAM_FMUNMAP : N := 8.
Definition BAM_FREVERSE : N := 16.
Definition BAM_FREAD1 : N := 64.
Definition BAM_FREAD2 : N := 128.
End Flag.

(** Values of optional tags as pysam returns them.  Float values are left
    out: [total += x] with a float [x] makes the total a float, whose sum
    depends on the order of the additions; the statements about the total
    below are about integer AS values only. *)
Inductive tagval :=
| TInt (v : Z)
| TStr (s : string)
| TArr (vs : list Z).

(** The fields of a pysam [AlignedSegment] read by this module.  [seq] and
    [qual] are the stored query sequence and qualities; pysam returns
    [None] for them when the SAM field is [*]. *)
Record AlignedSegment := mkSeg {
  qname : string;
  flag : N;
  seq : option string;
  qual : option string;
  tags : list (string * tagval)
}.

Definition flag_set (f bit : N) : bool := negb (N.eqb (N.land f bit) 0).

Definition is_read1 (s : AlignedSegment) : bool := flag_set (flag s) Flag.BAM_FREAD1.
Definition is_read2 (s : AlignedSegment) : bool := flag_set (flag s) Flag.BAM_FREAD2.
Definition is_reverse (s : AlignedSegment) : bool := flag_set (flag s) Flag.BAM_FREVERSE.

(** [sam.opt(tag)]: the value of the first tag of that name; [None] stands
    for the [KeyError] pysam raises when it is absent. *)
Fixpoint opt_in (l : list (string * tagval)) (tag : string) : option tagval :=
  match l with
  | [] => None
  | (t, v) :: l' => if String.eqb t tag then Some v else opt_in l' tag
  end.

Definition opt (s : AlignedSegment) (tag : string) : option tagval := opt_in (tags s) tag.

(* ------------------------------------------------------------------ *)
(** ** The awk filter of [run_bowtie2] (line 73)

    [awk ' !(and($2,4)) || !(and($2,8)) ']: a line is printed when the
    pattern is non-zero.  [$2] is the SAM flag. *)

Definition awk_filter_program : string :=
  " | awk ' !(and($2,4)) || !(and($2,8)) ' ".

(** awk's [!e] on a number: 1 when [e] is 0, else 0 (here as a bool). *)
Definition awk_not (e : N) : bool := N.eqb e 0.

Definition remove_both_unmapped_keep (f : N) : bool :=
  awk_not (N.land f 4) || awk_not (N.land f 8).

(* ------------------------------------------------------------------ *)
(** ** pyfastaq, as called by [sam_to_fastq] *)

Inductive PyError :=
| MappingError (msg : string)      (* ariba.mapping.Error *)
| SyscallError (cmd : string)      (* a failed external command *)
| FileNotFoundError (path : string)
| ZeroDivisionError
| TypeError                        (* len(None), None[::-1] *)
| AttributeError                   (* None.translate *)
| FastqLengthError (id : string).  (* pyfastaq.sequences.Error *)

Module Pyfastaq.
Record Fastq := mkFastq { id : string; fq_seq : option string; fq_qual : option string }.

(** [Fastq(id_in, seq_in, qual_in)]: the constructor checks
    [(not self.seq == self.qual == None) and len(self.qual) != len(self.seq)].
    Both [None] skip the check; one [None] makes [len(None)] raise
    [TypeError]; unequal lengths raise pyfastaq's [Error]. *)
Definition fastq (id_in : string) (seq_in qual_in : option string) : PyError + Fastq :=
  match seq_in, qual_in with
  | None, None => inr (mkFastq id_in None None)
  | Some s, Some q =>
      if Nat.eqb (String.length q) (String.length s) then inr (mkFastq id_in seq_in qual_in)
      else inl (FastqLengthError id_in)
  | _, _ => inl TypeError
  end.

(** [str.maketrans("ATCGatcg", "TAGCtagc")] *)
Definition revcomp_table (c : ascii) : ascii :=
  if ascii_dec c "A" then "T" else
  if ascii_dec c "T" then "A" else
  if ascii_dec c "C" then "G" else
  if ascii_dec c "G" then "C" else
  if ascii_dec c "a" then "t" else
  if ascii_dec c "t" then "a" else
  if ascii_dec c "c" then "g" else
  if ascii_dec c "g" then "c" else c.

Fixpoint translate (s : string) : string :=
  match s with
  | EmptyString => EmptyString
  | String c s' => String (revcomp_table c) (translate s')
  end.

(** [s[::-1]] *)
Fixpoint reverse (s : string) : string :=
  match s with
  | EmptyString => EmptyString
  | String c s' => reverse s' +s+ String c EmptyString
  end.

(** [Fastq.revcomp]: [Fasta.revcomp] on the bases
    ([self.seq.translate(...)[::-1]]), then [self.qual = self.qual[::-1]].
    On [None] bases the first step raises [AttributeError], on [None]
    qualities the second raises [TypeError]. *)
Definition revcomp (fq : Fastq) : PyError + Fastq :=
  match fq_seq fq, fq_qual fq with
  | None, _ => inl AttributeError
  | Some _, None => inl TypeError
  | Some s, Some q => inr (mkFastq (id fq) (Some (reverse (translate s))) (Some (reverse q)))
  end.
End Pyfastaq.

(** Modelled from the spec: [common.decode] (ariba/common.py is not among
    the sources).  The spec: bases and qualities are "decoded into a textual
    representation if the source representation is binary"; pysam returns
    them as text (or [None]) already, so decoding leaves them unchanged. *)
Definition decode (x : option string) : option string := x.

(* ------------------------------------------------------------------ *)
(** ** [sam_to_fastq] *)

Definition sam_to_fastq (sam : AlignedSegment) : PyError + Pyfastaq.Fastq :=
  let name := qname sam in
  let r :=
    if is_read1 sam then inr (name +s+ "/1")
    else if is_read2 sam then inr (name +s+ "/2")
    else inl (MappingError ("Read " +s+ name +s+
                " must be first or second of pair according to flag. Cannot continue"))
  in
  match r with
  | inl e => inl e
  | inr name =>
      match Pyfastaq.fastq name (decode (seq sam)) (decode (qual sam)) with
      | inl e => inl e
      | inr sq => if is_reverse sam then Pyfastaq.revcomp sq else inr sq
      end
  end.

(* ------------------------------------------------------------------ *)
(** ** [get_total_alignment_score]

    [total += sam.opt('AS')] inside a bare [try/except: pass]: a missing tag
    ([KeyError]) or a value that cannot be added to an int ([TypeError]) is
    swallowed and the record adds nothing. *)

Definition add_opt_as (total : Z) (sam : AlignedSegment) : Z :=
  match opt sam "AS" with
  | Some (TInt v) => (total + v)%Z
  | Some (TStr _) | Some (TArr _) => total   (* TypeError, swallowed *)
  | None => total                           (* KeyError, swallowed *)
  end.

(** The records of the BAM file in the order [fetch(until_eof=True)]
    returns them. *)
Definition get_total_alignment_score (bam : list AlignedSegment) : Z :=
  fold_left add_opt_as bam 0%Z.

(* ------------------------------------------------------------------ *)
(** ** Files, commands and the run state *)

(** The state a run sees: the set of existing paths, the shell command lines
    executed so far, and the paths the external tools wrote, in order. *)
Record St := mkSt {
  fs : gset string;
  log : list string;
  created : list string
}.

(** A computation that may raise a Python exception. *)
Definition M (A : Type) : Type := St -> PyError + (A * St).

Definition retM {A} (a : A) : M A := fun st => inr (a, st).
Definition bindM {A B} (m : M A) (k : A -> M B) : M B :=
  fun st => match m st with inl e => inl e | inr (a, st') => k a st' end.
Definition raiseM {A} (e : PyError) : M A := fun _ => inl e.

Notation "x <-- m ;; k" := (bindM m (fun x => k))
  (at level 100, m at next level, right associativity).
Notation "m ;;; k" := (bindM m (fun _ => k))
  (at level 100, right associativity).

Definition index_suffixes : list string := ["1"; "2"; "3"; "4"; "rev.1"; "rev.2"].

(** [[prefix + '.' + x + '.bt2' for x in [...]]] *)
Definition bt2_files (prefix : string) : list string :=
  map (fun x => prefix +s+ "." +s+ x +s+ ".bt2") index_suffixes.

(** The external commands the module runs, with the fields its lists hold;
    [cmd_line] is the string the source builds for each. *)
Inductive Cmd :=
| Bowtie2Build (bowtie2 ref_fa outprefix : string)
| MapPipeline (bowtie2 : string) (threads max_insert : Z)
    (bowtie2_preset map_index reads_fwd reads_rev : string)
    (remove_both_unmapped : bool) (samtools ref_fa intermediate_bam : string)
| SamtoolsSort (samtools : string) (threads thread_mem : Z)
    (final_bam out_prefix intermediate_bam : string)
| SamtoolsIndex (samtools final_bam : string).

Definition cmd_line (c : Cmd) : string :=
  match c with
  | Bowtie2Build bowtie2 ref_fa outprefix =>
      py_join [bowtie2 +s+ "-build"; "-q"; ref_fa; outprefix]
  | MapPipeline bowtie2 threads max_insert preset map_index fwd rev rbu samtools ref_fa ibam =>
      py_join ([bowtie2; "--threads"; py_str threads; "--reorder"; "--" +s+ preset;
                "-X"; py_str max_insert; "-x"; map_index; "-1"; fwd; "-2"; rev]
               ++ (if rbu then [awk_filter_program] else [])
               ++ ["|"; samtools; "view"; "-bS -T"; ref_fa; "- >"; ibam])
  | SamtoolsSort samtools threads thread_mem final_bam out_prefix ibam =>
      py_join [samtools; "sort"; "-@" +s+ py_str threads;
               "-m" +s+ py_str thread_mem +s+ "M"; "-o"; final_bam; "-O bam";
               "-T"; out_prefix +s+ ".tmp.samtool_sort"; ibam]
  | SamtoolsIndex samtools final_bam => samtools +s+ " index " +s+ final_bam
  end.

(** Modelled from the spec: the files a successful external command leaves
    behind.  bowtie2-build "creates exactly six files"; the mapping pipeline
    writes the intermediate BAM through its [>] redirection; samtools sort
    writes the final BAM (its temporary files are its own to remove);
    samtools index writes the companion index of the final BAM. *)
Definition writes (c : Cmd) : list string :=
  match c with
  | Bowtie2Build _ _ outprefix => bt2_files outprefix
  | MapPipeline _ _ _ _ _ _ _ _ _ _ ibam => [ibam]
  | SamtoolsSort _ _ _ final_bam _ _ => [final_bam]
  | SamtoolsIndex _ final_bam => [final_bam +s+ ".bai"]
  end.

Section Run.

(** Whether the shell command line exits with status 0. *)
Variable exit_ok : string -> bool.

(** Modelled from the spec: [common.syscall] (ariba/common.py is not among
    the sources).  It runs the command line once; a non-zero exit is fatal
    and propagates. *)
Definition syscall (c : Cmd) : M unit := fun st =>
  let line := cmd_line c in
  if exit_ok line then
    inr (tt, mkSt (fs st ∪ list_to_set (writes c)) (log st ++ [line])
                  (created st ++ writes c))
  else inl (SyscallError line).

(** [os.path.exists] *)
Definition path_exists (f : string) (st : St) : bool := bool_decide (f ∈ fs st).

(** [os.unlink]: raises [FileNotFoundError] on a missing path.  Its other
    failures ([PermissionError] and the like) are not modelled: the
    statements below that rely on this are about successful runs, or say
    only which errors cannot occur. *)
Definition unlink (f : string) : M unit := fun st =>
  if path_exists f st then inr (tt, mkSt (fs st ∖ {[ f ]}) (log st) (created st))
  else inl (FileNotFoundError f).

(** [for fname in clean_files: os.unlink(fname)] *)
Fixpoint unlink_all (l : list string) : M unit :=
  match l with
  | [] => retM tt
  | f :: l' => unlink f ;;; unlink_all l'
  end.

(** The loop with [break] of [bowtie2_index]. *)
Fixpoint file_missing (l : list string) (st : St) : bool :=
  match l with
  | [] => false
  | f :: l' => if path_exists f st then file_missing l' st else true
  end.

Definition bowtie2_index (ref_fa outprefix bowtie2 : string) : M unit := fun st =>
  let expected_files := bt2_files outprefix in
  if negb (file_missing expected_files st) then inr (tt, st)
  else syscall (Bowtie2Build bowtie2 ref_fa outprefix) st.

(** The keyword arguments of [run_bowtie2] (verbosity only prints). *)
Record RunOpts := mkRunOpts {
  threads : Z;
  max_insert : Z;
  sort : bool;
  samtools : string;
  bowtie2 : string;
  bowtie2_preset : string;
  remove_both_unmapped : bool;
  clean_index : bool
}.

Definition default_opts : RunOpts :=
  mkRunOpts 1 1000 false "samtools" "bowtie2" "very-sensitive-local" false true.

Definition run_bowtie2 (reads_fwd reads_rev ref_fa out_prefix : string)
    (o : RunOpts) : M unit :=
  let map_index := out_prefix +s+ ".map_index" in
  let clean_files := if clean_index o then bt2_files map_index else [] in
  let final_bam := out_prefix +s+ ".bam" in
  let intermediate_bam := if sort o then out_prefix +s+ ".unsorted.bam" else final_bam in
  let map_cmd := MapPipeline (bowtie2 o) (threads o) (max_insert o) (bowtie2_preset o)
                   map_index reads_fwd reads_rev (remove_both_unmapped o)
                   (samtools o) ref_fa intermediate_bam in
  bowtie2_index ref_fa map_index (bowtie2 o) ;;;
  syscall map_cmd ;;;
  clean_files <--
    (if sort o then
       let threads := Z.min 4 (threads o) in
       match py_int_true_div 500 threads with
       | None => raiseM ZeroDivisionError
       | Some thread_mem =>
           syscall (SamtoolsSort (samtools o) threads thread_mem final_bam out_prefix
                      intermediate_bam) ;;;
           syscall (SamtoolsIndex (samtools o) final_bam) ;;;
           retM (clean_files ++ [intermediate_bam])%list
       end
     else retM clean_files) ;;
  unlink_all clean_files.

End Run.

Definition st0 : St := mkSt ∅ [] [].

Example run_demo_log :
  match run_bowtie2 (fun _ => true) "r1.fq" "r2.fq" "ref.fa" "out"
          (mkRunOpts 3 1000 true "samtools" "bowtie2" "very-sensitive-local" true true) st0 with
  | inr (_, st) => log st
  | inl _ => []
  end =
  ["bowtie2-build -q ref.fa out.map_index";
   "bowtie2 --threads 3 --reorder --very-sensitive-local -X 1000 -x out.map_index -1 r1.fq -2 r2.fq  | awk ' !(and($2,4)) || !(and($2,8)) '  | samtools view -bS -T ref.fa - > out.unsorted.bam";
   "samtools sort -@3 -m166M -o out.bam -O bam -T out.tmp.samtool_sort out.unsorted.bam";
   "samtools index out.bam"].
Proof. vm_compute. reflexivity. Qed.

(* ================================================================== *)
(** * Properties *)

(** ** Bits of the flag word *)

Lemma land_pow2_eqb_0 (f : N) (k : N) :
  N.eqb (N.land f (2 ^ k)) 0 = negb (N.testbit f k).
Proof.
  destruct (N.testbit f k) eqn:E; simpl.
  - apply N.eqb_neq. intros H.
    assert (Hb : N.testbit (N.land f (2 ^ k)) k = true).
    { rewrite N.land_spec, N.pow2_bits_true, E. reflexivity. }
    rewrite H in Hb. discriminate.
  - apply N.eqb_eq, N.bits_inj_0. intros n.
    rewrite N.land_spec, N.pow2_bits_eqb.
    destruct (N.eqb_spec k n) as [<-|_].
    + rewrite E. reflexivity.
    + apply andb_false_r.
Qed.

Lemma flag_set_testbit (f : N) (k : N) : flag_set f (2 ^ k) = N.testbit f k.
Proof. unfold flag_set. rewrite land_pow2_eqb_0. apply negb_involutive. Qed.

Lemma is_read1_bit (s : AlignedSegment) : is_read1 s = N.testbit (flag s) 6.
Proof. apply (flag_set_testbit _ 6). Qed.

Lemma is_read2_bit (s : AlignedSegment) : is_read2 s = N.testbit (flag s) 7.
Proof. apply (flag_set_testbit _ 7). Qed.

Lemma is_reverse_bit (s : AlignedSegment) : is_reverse s = N.testbit (flag s) 4.
Proof. apply (flag_set_testbit _ 4). Qed.

(** ** Strings *)

Lemma list_ascii_of_string_append (a b : string) :
  list_ascii_of_string (a +s+ b) = (list_ascii_of_string a ++ list_ascii_of_string b)%list.
Proof. induction a as [|c a IH]; simpl; [reflexivity | now rewrite IH]. Qed.

Lemma reverse_list (s : string) :
  list_ascii_of_string (Pyfastaq.reverse s) = rev (list_ascii_of_string s).
Proof.
  induction s as [|c s IH]; simpl; [reflexivity|].
  now rewrite list_ascii_of_string_append, IH.
Qed.

Lemma translate_list (s : string) :
  list_ascii_of_string (Pyfastaq.translate s) =
  map Pyfastaq.revcomp_table (list_ascii_of_string s).
Proof. induction s as [|c s IH]; simpl; [reflexivity | now rewrite IH]. Qed.

(** ** C1: the unmapped-pair filter *)

(** C1: the predicate of the awk stage that [run_bowtie2] inserts when
    [remove_both_unmapped] is set keeps a record exactly when bit 2 (value 4,
    read unmapped) or bit 3 (value 8, mate unmapped) of its flag is clear:
    it is false when both bits are set and true otherwise, in particular
    when exactly one of them is set. *)
Theorem remove_both_unmapped_keep_spec (f : N) :
  remove_both_unmapped_keep f = negb (N.testbit f 2 && N.testbit f 3).
Proof.
  unfold remove_both_unmapped_keep, awk_not.
  change 4%N with (2 ^ 2)%N. change 8%N with (2 ^ 3)%N.
  rewrite !land_pow2_eqb_0.
  destruct (N.testbit f 2), (N.testbit f 3); reflexivity.
Qed.

Example remove_both_unmapped_keep_table :
  remove_both_unmapped_keep 77 = false /\    (* paired, both unmapped, read1 *)
  remove_both_unmapped_keep 137 = true /\    (* mate unmapped only *)
  remove_both_unmapped_keep 69 = true /\     (* read unmapped only *)
  remove_both_unmapped_keep 99 = true.
Proof. repeat split. Qed.

(** ** C2, C3, C10: [sam_to_fastq] *)

Definition pair_role_error_msg (name : string) : string :=
  "Read " +s+ name +s+ " must be first or second of pair according to flag. Cannot continue".

(** A record with a pairing-role bit set gets its suffixed name and goes
    to pyfastaq's constructor, then to [revcomp] on the reverse strand. *)
Lemma sam_to_fastq_role (s : AlignedSegment) :
  N.testbit (flag s) 6 = true \/ N.testbit (flag s) 7 = true ->
  sam_to_fastq s =
    match Pyfastaq.fastq (qname s +s+ (if N.testbit (flag s) 6 then "/1" else "/2"))
            (seq s) (qual s) with
    | inl e => inl e
    | inr sq => if N.testbit (flag s) 4 then Pyfastaq.revcomp sq else inr sq
    end.
Proof.
  unfold sam_to_fastq, decode. rewrite is_read1_bit, is_read2_bit, is_reverse_bit.
  destruct (N.testbit (flag s) 6), (N.testbit (flag s) 7); intros [H|H];
  try discriminate; reflexivity.
Qed.

(** C2 (corrected): [sam_to_fastq] raises [ariba.mapping.Error], with the
    message naming the read, exactly when neither the first-of-pair bit
    (64) nor the second-of-pair bit (128) of the flag is set.  A record
    with one of them set never raises that error: it is returned as a
    Fastq record when its sequence and qualities are both stored with the
    same length, and fails with [TypeError] in pyfastaq's constructor when
    exactly one of them is absent ([*] in the SAM file). *)
Theorem sam_to_fastq_pair_role_error (s : AlignedSegment) :
  (sam_to_fastq s = inl (MappingError (pair_role_error_msg (qname s))) <->
   N.testbit (flag s) 6 = false /\ N.testbit (flag s) 7 = false) /\
  (forall m, sam_to_fastq s = inl (MappingError m) -> m = pair_role_error_msg (qname s)) /\
  (N.testbit (flag s) 6 = true \/ N.testbit (flag s) 7 = true ->
   (forall x y, seq s = Some x -> qual s = Some y -> String.length x = String.length y ->
    exists fq, sam_to_fastq s = inr fq) /\
   ((is_Some (seq s) /\ qual s = None) \/ (seq s = None /\ is_Some (qual s)) ->
    sam_to_fastq s = inl TypeError)).
Proof.
  destruct (N.testbit (flag s) 6 || N.testbit (flag s) 7) eqn:Hr.
  - assert (Hrole : N.testbit (flag s) 6 = true \/ N.testbit (flag s) 7 = true).
    { apply orb_true_iff in Hr. exact Hr. }
    rewrite (sam_to_fastq_role s Hrole). unfold Pyfastaq.fastq, Pyfastaq.revcomp.
    split; [|split; [|intros _; split]].
    + split; [|intros [H6 H7]; rewrite H6, H7 in Hr; discriminate].
      destruct (seq s), (qual s); [destruct (Nat.eqb _ _)| | |];
      destruct (N.testbit (flag s) 4); discriminate.
    + intros m. destruct (seq s), (qual s); [destruct (Nat.eqb _ _)| | |];
      destruct (N.testbit (flag s) 4); discriminate.
    + intros x y -> -> Hl. rewrite Hl, Nat.eqb_refl. cbn.
      destruct (N.testbit (flag s) 4); eexists; reflexivity.
    + intros Hc. destruct (seq s), (qual s); [exfalso | reflexivity | reflexivity | exfalso];
      destruct Hc as [[H H']|[H H']];
      first [ discriminate H | discriminate H'
            | exact (is_Some_None H) | exact (is_Some_None H') ].
  - apply orb_false_iff in Hr as [H6 H7].
    assert (He : sam_to_fastq s = inl (MappingError (pair_role_error_msg (qname s)))).
    { unfold sam_to_fastq. rewrite is_read1_bit, is_read2_bit, H6, H7. reflexivity. }
    rewrite He. split; [tauto|]. split.
    + intros m [= <-]. reflexivity.
    + rewrite H6, H7. intros [H|H]; discriminate.
Qed.

(** C3: for a record [sam_to_fastq] accepts, the name is the read name
    with "/1" (first of pair) or "/2" (second of pair); on the forward
    strand the bases and qualities are the stored ones; on the reverse
    strand (flag bit 16) the bases are complemented and reversed and the
    qualities only reversed. *)
Theorem sam_to_fastq_name_and_strand (s : AlignedSegment) :
  match sam_to_fastq s with
  | inl _ => True
  | inr fq =>
      Pyfastaq.id fq = qname s +s+ (if N.testbit (flag s) 6 then "/1" else "/2") /\
      (if N.testbit (flag s) 4 then
         option_map list_ascii_of_string (Pyfastaq.fq_seq fq) =
           option_map (fun x => rev (map Pyfastaq.revcomp_table (list_ascii_of_string x)))
             (seq s) /\
         option_map list_ascii_of_string (Pyfastaq.fq_qual fq) =
           option_map (fun x => rev (list_ascii_of_string x)) (qual s)
       else Pyfastaq.fq_seq fq = seq s /\ Pyfastaq.fq_qual fq = qual s)
  end.
Proof.
  unfold sam_to_fastq, decode, Pyfastaq.fastq, Pyfastaq.revcomp.
  rewrite is_read1_bit, is_read2_bit, is_reverse_bit.
  destruct (N.testbit (flag s) 6), (N.testbit (flag s) 7); try exact I;
  (destruct (seq s) as [x|], (qual s) as [y|]; [destruct (Nat.eqb _ _)| | |]; try exact I;
   destruct (N.testbit (flag s) 4); cbn; try exact I;
   (split; [reflexivity|]); rewrite ?reverse_list, ?translate_list; auto).
Qed.



(** The pairing-role part of C2 at work: a second-of-pair record without
    qualities ([QUAL] is [*]) still never raises the pairing-role error. *)
Lemma sam_to_fastq_pair_role_error_witness :
  sam_to_fastq (mkSeg "readB" 128 (Some "ACGT") None []) = inl TypeError /\
  exists fq, sam_to_fastq (mkSeg "readB" 128 (Some "ACGT") (Some "IIII") []) = inr fq.
Proof.
  destruct (sam_to_fastq_pair_role_error (mkSeg "readB" 128 (Some "ACGT") None []))
    as (_ & _ & Ha).
  destruct (sam_to_fastq_pair_role_error (mkSeg "readB" 128 (Some "ACGT") (Some "IIII") []))
    as (_ & _ & Hb).
  split.
  - apply (proj2 (Ha (or_intror eq_refl))). left. split; [eexists|]; reflexivity.
  - apply (proj1 (Hb (or_intror eq_refl)) "ACGT" "IIII"); reflexivity.
Defined.

(** C2 as first stated promised a Fastq record for every record with a
    pairing-role bit set.  A first-of-pair record stored without qualities
    makes pyfastaq's constructor evaluate [len(None)]: [TypeError]. *)
Lemma sam_to_fastq_pair_role_error_counterexample :
  ~ (forall s : AlignedSegment,
       N.testbit (flag s) 6 = true \/ N.testbit (flag s) 7 = true ->
       exists fq, sam_to_fastq s = inr fq).
Proof.
  intros H.
  destruct (H (mkSeg "readA" 64 (Some "ACGT") None []) (or_introl eq_refl)) as [fq Hfq].
  vm_compute in Hfq. discriminate.
Qed.


Example sam_to_fastq_reverse_example :
  sam_to_fastq (mkSeg "readA" (64 + 16) (Some "ACGG") (Some "IIIJ") []) =
  inr (Pyfastaq.mkFastq "readA/1" (Some "CCGT") (Some "JIII")).
Proof. reflexivity. Qed.

Example sam_to_fastq_no_role_example :
  sam_to_fastq (mkSeg "readA" 0 (Some "ACGT") (Some "IIII") []) =
  inl (MappingError "Read readA must be first or second of pair according to flag. Cannot continue").
Proof. reflexivity. Qed.

(** ** C4: the alignment-score total *)

(** [as_scores bam vs]: the records of [bam] carry an integer AS tag or no
    AS tag, and [vs] lists the AS values of the tagged ones in order. *)
Inductive as_scores : list AlignedSegment -> list Z -> Prop :=
| as_scores_nil : as_scores [] []
| as_scores_tagged r v bam vs :
    opt r "AS" = Some (TInt v) -> as_scores bam vs -> as_scores (r :: bam) (v :: vs)
| as_scores_untagged r bam vs :
    opt r "AS" = None -> as_scores bam vs -> as_scores (r :: bam) vs.

Lemma fold_add_opt_as (bam : list AlignedSegment) (vs : list Z) (acc : Z) :
  as_scores bam vs -> fold_left add_opt_as bam acc = (acc + fold_right Z.add 0 vs)%Z.
Proof.
  intros Hs. revert acc.
  induction Hs as [|r v bam vs Hr Hs IH|r bam vs Hr Hs IH]; intros acc; simpl.
  - lia.
  - rewrite IH. unfold add_opt_as; rewrite Hr. lia.
  - rewrite IH. unfold add_opt_as; rewrite Hr. reflexivity.
Qed.

(** C4: on a BAM file whose records carry integer AS values [v1..vM] or
    no AS tag, the total is [v1 + ... + vM]; untagged records add nothing
    and raise nothing. *)
Theorem get_total_alignment_score_sum (bam : list AlignedSegment) (vs : list Z)
    (Hs : as_scores bam vs) :
  get_total_alignment_score bam = fold_right Z.add 0%Z vs.
Proof. unfold get_total_alignment_score. rewrite (fold_add_opt_as _ _ _ Hs). lia. Qed.

Definition demo_bam : list AlignedSegment :=
  [mkSeg "r1" 99 (Some "ACGT") (Some "IIII") [("NM", TInt 0); ("AS", TInt 7)];
   mkSeg "r2" 77 (Some "ACGT") (Some "IIII") [];
   mkSeg "r3" 147 (Some "ACGT") (Some "IIII") [("AS", TInt (-2))];
   mkSeg "r4" 141 (Some "ACGT") (Some "IIII") [("YT", TStr "UP")]].

Lemma get_total_alignment_score_sum_witness :
  as_scores demo_bam [7; -2]%Z /\ get_total_alignment_score demo_bam = 5%Z.
Proof.
  assert (Hs : as_scores demo_bam [7; -2]%Z).
  { unfold demo_bam.
    apply as_scores_tagged; [reflexivity|].
    apply as_scores_untagged; [reflexivity|].
    apply as_scores_tagged; [reflexivity|].
    apply as_scores_untagged; [reflexivity|].
    apply as_scores_nil. }
  split; [exact Hs|].
  exact (get_total_alignment_score_sum demo_bam [7; -2]%Z Hs).
Defined.

Example get_total_alignment_score_empty : get_total_alignment_score [] = 0%Z.
Proof. reflexivity. Qed.

(** ** The run: bookkeeping lemmas *)

(** stdpp marks [String.append] [simpl never]; its two equations. *)
Lemma str_append_nil (b : string) : EmptyString +s+ b = b.
Proof. reflexivity. Qed.

Lemma str_append_cons (x : ascii) (a b : string) : String x a +s+ b = String x (a +s+ b).
Proof. reflexivity. Qed.

Lemma str_append_assoc (a b c : string) : (a +s+ b) +s+ c = a +s+ (b +s+ c).
Proof.
  induction a as [|x a IH]; [reflexivity|].
  rewrite !str_append_cons, IH. reflexivity.
Qed.

Lemma str_append_neq (p a b : string) : a <> b -> p +s+ a <> p +s+ b.
Proof. intros Hab H. apply Hab. exact (inj (String.append p) _ _ H). Qed.

(** The six index files of [out_prefix.map_index] are none of the BAM paths
    of the same run. *)
Lemma map_index_file_not_bam (out f : string) :
  f ∈ bt2_files (out +s+ ".map_index") ->
  f <> out +s+ ".bam" /\ f <> out +s+ ".unsorted.bam" /\ f <> (out +s+ ".bam") +s+ ".bai".
Proof.
  unfold bt2_files, index_suffixes. simpl.
  rewrite !elem_of_cons, elem_of_nil.
  intros Hf; repeat destruct Hf as [->|Hf]; try contradiction;
  rewrite !str_append_assoc; simpl;
  repeat split; apply str_append_neq; discriminate.
Qed.

Lemma unsorted_not_bam (out : string) :
  out +s+ ".unsorted.bam" <> out +s+ ".bam" /\
  out +s+ ".unsorted.bam" <> (out +s+ ".bam") +s+ ".bai".
Proof. rewrite !str_append_assoc. split; apply str_append_neq; discriminate. Qed.

Lemma unlink_all_ok (l : list string) (st st' : St) (u : unit) :
  unlink_all l st = inr (u, st') ->
  fs st' = fs st ∖ list_to_set l /\ log st' = log st /\ created st' = created st.
Proof.
  revert st. induction l as [|f l IH]; intros st; simpl.
  - intros [= _ <-]. split; [set_solver | auto].
  - unfold bindM, unlink, path_exists.
    case_bool_decide as Hf; [|discriminate].
    intros H. destruct (IH _ H) as (Hfs & Hlog & Hcr). simpl in *.
    rewrite Hfs, Hlog, Hcr. split; [set_solver | auto].
Qed.

Lemma file_missing_false (l : list string) (st : St) :
  file_missing l st = false -> forall f, f ∈ l -> f ∈ fs st.
Proof.
  induction l as [|g l IH]; simpl; intros H f Hf.
  - by apply elem_of_nil in Hf.
  - unfold path_exists in H. case_bool_decide as Hg; [|discriminate].
    apply elem_of_cons in Hf as [->|Hf]; auto.
Qed.

Lemma file_missing_true (l : list string) (st : St) :
  file_missing l st = true -> exists f, f ∈ l /\ f ∉ fs st.
Proof.
  induction l as [|g l IH]; simpl; intros H; [discriminate|].
  unfold path_exists in H. case_bool_decide as Hg.
  - destruct (IH H) as (f & Hf & Hn). exists f. split; [by right|done].
  - exists g. split; [left|]; done.
Qed.

Lemma file_missing_true_iff (l : list string) (st : St) :
  file_missing l st = true <-> exists f, f ∈ l /\ f ∉ fs st.
Proof.
  split; [apply file_missing_true|].
  intros (f & Hf & Hn). destruct (file_missing l st) eqn:E; [done|].
  exfalso. exact (Hn (file_missing_false l st E f Hf)).
Qed.

Section RunFacts.

Variable exit_ok : string -> bool.

Lemma syscall_ok (c : Cmd) (st st' : St) (u : unit) :
  syscall exit_ok c st = inr (u, st') ->
  fs st' = fs st ∪ list_to_set (writes c) /\
  log st' = (log st ++ [cmd_line c])%list /\
  created st' = (created st ++ writes c)%list.
Proof.
  unfold syscall. destruct (exit_ok (cmd_line c)); [|discriminate].
  intros [= _ <-]. simpl. auto.
Qed.

Lemma bowtie2_index_ok (ref_fa p b : string) (st st' : St) (u : unit) :
  bowtie2_index exit_ok ref_fa p b st = inr (u, st') ->
  (forall f, f ∈ bt2_files p -> f ∈ fs st') /\
  fs st ⊆ fs st' /\ fs st' ⊆ fs st ∪ list_to_set (bt2_files p) /\
  (created st' = created st \/ created st' = (created st ++ bt2_files p)%list) /\
  (exists l, log st' = (log st ++ l)%list).
Proof.
  unfold bowtie2_index.
  destruct (file_missing (bt2_files p) st) eqn:E; simpl.
  - intros H. destruct (syscall_ok _ _ _ _ H) as (Hfs & Hlog & Hcr).
    change (writes (Bowtie2Build b ref_fa p)) with (bt2_files p) in Hfs, Hcr.
    rewrite Hfs, Hcr. split; [|split; [|split; [|split]]]; [| set_solver | set_solver | by right | eauto].
    intros f Hf. apply elem_of_union_r. by apply elem_of_list_to_set.
  - intros [= _ <-]. split; [by apply file_missing_false|]. split; [done|].
    split; [set_solver|]. split; [by left|]. exists []. by rewrite app_nil_r.
Qed.

End RunFacts.

Section RunOutcome.

Variable exit_ok : string -> bool.

(** What a successful [run_bowtie2] did, step by step. *)
Lemma run_bowtie2_ok_inv (fwd rev ref out : string) (o : RunOpts) (st st' : St) (u : unit) :
  run_bowtie2 exit_ok fwd rev ref out o st = inr (u, st') ->
  let ibam := if sort o then out +s+ ".unsorted.bam" else out +s+ ".bam" in
  exists st1,
    bowtie2_index exit_ok ref (out +s+ ".map_index") (bowtie2 o) st = inr (tt, st1) /\
    fs st' = (fs st1 ∪ {[ibam]} ∪
              (if sort o then {[out +s+ ".bam"]} ∪ {[(out +s+ ".bam") +s+ ".bai"]} else ∅))
             ∖ list_to_set ((if clean_index o then bt2_files (out +s+ ".map_index") else [])
                            ++ (if sort o then [ibam] else []))%list /\
    log st' = (log st1 ++
               [cmd_line (MapPipeline (bowtie2 o) (threads o) (max_insert o) (bowtie2_preset o)
                  (out +s+ ".map_index") fwd rev (remove_both_unmapped o) (samtools o) ref ibam)]
               ++ (if sort o then
                     [cmd_line (SamtoolsSort (samtools o) (Z.min 4 (threads o))
                                  (Z.quot 500 (Z.min 4 (threads o))) (out +s+ ".bam") out ibam);
                      cmd_line (SamtoolsIndex (samtools o) (out +s+ ".bam"))]
                   else []))%list /\
    created st' = (created st1 ++ [ibam] ++
                   (if sort o then [out +s+ ".bam"; (out +s+ ".bam") +s+ ".bai"] else []))%list.
Proof.
  intros H ibam. unfold run_bowtie2, bindM in H. fold ibam in H.
  destruct (bowtie2_index exit_ok ref (out +s+ ".map_index") (bowtie2 o) st)
    as [e|[[] st1]] eqn:E1; [discriminate|].
  exists st1. split; [reflexivity|].
  match type of H with context [syscall exit_ok ?c st1] =>
    destruct (syscall exit_ok c st1) as [e|[[] st2]] eqn:E2; [discriminate|];
    destruct (syscall_ok _ _ _ _ _ E2) as (F2 & L2 & C2)
  end.
  unfold ibam in *. destruct (sort o).
  - unfold py_int_true_div in H. destruct (Z.eqb _ 0); [discriminate|].
    match type of H with context [syscall exit_ok ?c st2] =>
      destruct (syscall exit_ok c st2) as [e|[[] st3]] eqn:E3; [discriminate|];
      destruct (syscall_ok _ _ _ _ _ E3) as (F3 & L3 & C3)
    end.
    match type of H with context [syscall exit_ok ?c st3] =>
      destruct (syscall exit_ok c st3) as [e|[[] st4]] eqn:E4; [discriminate|];
      destruct (syscall_ok _ _ _ _ _ E4) as (F4 & L4 & C4)
    end.
    destruct (unlink_all_ok _ _ _ _ H) as (F5 & L5 & C5).
    rewrite F5, F4, F3, F2, L5, L4, L3, L2, C5, C4, C3, C2. simpl writes.
    split; [set_solver|]. split; [by rewrite <- !app_assoc|].
    by rewrite <- !app_assoc.
  - destruct (unlink_all_ok _ _ _ _ H) as (F5 & L5 & C5).
    rewrite F5, F2, L5, L2, C5, C2. simpl writes.
    split; [set_solver|]. split; [by rewrite !app_nil_r|]. by rewrite !app_nil_r.
Qed.

End RunOutcome.

(** ** C5 to C9: [bowtie2_index] and [run_bowtie2] *)

Lemma bt2_files_literal (p : string) :
  bt2_files p = [p +s+ ".1.bt2"; p +s+ ".2.bt2"; p +s+ ".3.bt2"; p +s+ ".4.bt2";
                 p +s+ ".rev.1.bt2"; p +s+ ".rev.2.bt2"].
Proof. reflexivity. Qed.

Lemma sort_thread_mem_div (t : Z) :
  (1 <= t)%Z -> Z.quot 500 (Z.min 4 t) = (500 / Z.min 4 t)%Z.
Proof. intros Ht. apply Z.quot_div_nonneg; lia. Qed.

Lemma bowtie2_build_line (b ref_fa p : string) :
  cmd_line (Bowtie2Build b ref_fa p) = b +s+ "-build -q " +s+ ref_fa +s+ " " +s+ p.
Proof. unfold cmd_line, py_join. cbn [String.concat]. rewrite !str_append_assoc. reflexivity. Qed.

Lemma samtools_sort_line (s : string) (t m : Z) (out : string) :
  cmd_line (SamtoolsSort s t m (out +s+ ".bam") out (out +s+ ".unsorted.bam")) =
  s +s+ " sort -@" +s+ py_str t +s+ " -m" +s+ py_str m +s+ "M -o " +s+ out +s+
  ".bam -O bam -T " +s+ out +s+ ".tmp.samtool_sort " +s+ out +s+ ".unsorted.bam".
Proof. unfold cmd_line, py_join. cbn [String.concat]. rewrite !str_append_assoc. reflexivity. Qed.

Lemma samtools_index_line (s out : string) :
  cmd_line (SamtoolsIndex s (out +s+ ".bam")) = s +s+ " index " +s+ out +s+ ".bam".
Proof. reflexivity. Qed.

Section RunClaims.

Variable exit_ok : string -> bool.

(** C6: when the six index files of [p] all exist, [bowtie2_index] returns
    at once: the state comes back unchanged, so no command line is run and
    no path is added or removed.  Only the existence of the paths is
    consulted. *)
Theorem bowtie2_index_all_present_noop (ref_fa p b : string) (st : St)
    (Hall : forall f, f ∈ bt2_files p -> f ∈ fs st) :
  bowtie2_index exit_ok ref_fa p b st = inr (tt, st).
Proof.
  unfold bowtie2_index.
  destruct (file_missing (bt2_files p) st) eqn:E; [|reflexivity].
  apply file_missing_true in E as (f & Hf & Hn). exfalso. exact (Hn (Hall f Hf)).
Qed.

(** C7: the six expected paths are [p.1.bt2], [p.2.bt2], [p.3.bt2],
    [p.4.bt2], [p.rev.1.bt2] and [p.rev.2.bt2]; when one is missing,
    [bowtie2_index] runs exactly one command line, [<bowtie2>-build -q
    <ref_fa> <p>]: on success the log grows by that line alone, on failure
    its error is raised. *)
Theorem bowtie2_index_missing_builds (ref_fa p b : string) (st : St)
    (Hmiss : exists f, f ∈ bt2_files p /\ f ∉ fs st) :
  bt2_files p = [p +s+ ".1.bt2"; p +s+ ".2.bt2"; p +s+ ".3.bt2"; p +s+ ".4.bt2";
                 p +s+ ".rev.1.bt2"; p +s+ ".rev.2.bt2"] /\
  match bowtie2_index exit_ok ref_fa p b st with
  | inr (_, st') => log st' = (log st ++ [b +s+ "-build -q " +s+ ref_fa +s+ " " +s+ p])%list
  | inl e => e = SyscallError (b +s+ "-build -q " +s+ ref_fa +s+ " " +s+ p)
  end.
Proof.
  split; [apply bt2_files_literal|].
  apply file_missing_true_iff in Hmiss.
  unfold bowtie2_index. rewrite Hmiss. cbn [negb].
  unfold syscall. rewrite bowtie2_build_line.
  destruct (exit_ok _); reflexivity.
Qed.

(** C5: with [sort] set and [threads >= 1], a successful run ends its
    commands with [samtools sort] at [min(4, threads)] threads and
    [500 / min(4, threads)] MiB per thread, writing [out.bam] from
    [out.unsorted.bam], followed by [samtools index out.bam]. *)
Theorem run_bowtie2_sort_then_index (fwd rev ref out : string) (o : RunOpts)
    (st st' : St) (u : unit)
    (Ht : (1 <= threads o)%Z) (Hs : sort o = true)
    (H : run_bowtie2 exit_ok fwd rev ref out o st = inr (u, st')) :
  exists pre,
    log st' = (log st ++ pre ++
      [samtools o +s+ " sort -@" +s+ py_str (Z.min 4 (threads o)) +s+
       " -m" +s+ py_str (500 / Z.min 4 (threads o)) +s+ "M -o " +s+ out +s+
       ".bam -O bam -T " +s+ out +s+ ".tmp.samtool_sort " +s+ out +s+ ".unsorted.bam";
       samtools o +s+ " index " +s+ out +s+ ".bam"])%list.
Proof.
  apply run_bowtie2_ok_inv in H. cbv zeta in H. rewrite Hs in H.
  destruct H as (st1 & E1 & _ & Hlog & _).
  destruct (bowtie2_index_ok _ _ _ _ _ _ _ E1) as (_ & _ & _ & _ & [l Hl]).
  rewrite Hlog, Hl, samtools_sort_line, samtools_index_line, sort_thread_mem_div by exact Ht.
  exists (l ++ [cmd_line (MapPipeline (bowtie2 o) (threads o) (max_insert o) (bowtie2_preset o)
                 (out +s+ ".map_index") fwd rev (remove_both_unmapped o) (samtools o) ref
                 (out +s+ ".unsorted.bam"))])%list.
  rewrite <- !app_assoc. reflexivity.
Qed.


(** C9: after a successful run with [clean_index] set, none of the six
    index files of [out.map_index] exists; with [clean_index] unset all six
    exist: none is deleted. *)
Theorem run_bowtie2_clean_index (fwd rev ref out : string) (o : RunOpts)
    (st st' : St) (u : unit)
    (H : run_bowtie2 exit_ok fwd rev ref out o st = inr (u, st')) :
  if clean_index o then forall f, f ∈ bt2_files (out +s+ ".map_index") -> f ∉ fs st'
  else forall f, f ∈ bt2_files (out +s+ ".map_index") -> f ∈ fs st'.
Proof.
  apply run_bowtie2_ok_inv in H. cbv zeta in H.
  destruct H as (st1 & E1 & Hfs & _ & _).
  destruct (bowtie2_index_ok _ _ _ _ _ _ _ E1) as (Hin & _ & _ & _ & _).
  rewrite Hfs. destruct (clean_index o); intros f Hf.
  - rewrite elem_of_difference, elem_of_list_to_set, elem_of_app. tauto.
  - rewrite elem_of_difference, elem_of_list_to_set, elem_of_app. split.
    + apply elem_of_union_l, elem_of_union_l, Hin, Hf.
    + destruct (map_index_file_not_bam out f Hf) as (_ & Hu & _).
      destruct (sort o); cbv iota; rewrite ?list_elem_of_singleton, ?elem_of_nil; tauto.
Qed.

(** C8: a successful run leaves the final BAM [out.bam].  Without [sort]
    the pipeline writes [out.bam] directly, no tool writes
    [out.unsorted.bam], and a run that starts without it ends without it.
    With [sort] the pipeline writes [out.unsorted.bam] and the run deletes
    it. *)
Theorem run_bowtie2_bam_paths (fwd rev ref out : string) (o : RunOpts)
    (st st' : St) (u : unit)
    (H : run_bowtie2 exit_ok fwd rev ref out o st = inr (u, st')) :
  out +s+ ".bam" ∈ fs st' /\
  exists w, created st' = (created st ++ w)%list /\ out +s+ ".bam" ∈ w /\
    (if sort o then ((out +s+ ".unsorted.bam") ∈ w /\ (out +s+ ".unsorted.bam") ∉ fs st')
     else (((out +s+ ".unsorted.bam") ∉ w) /\
           ((out +s+ ".unsorted.bam") ∉ fs st -> (out +s+ ".unsorted.bam") ∉ fs st'))).
Proof.
  apply run_bowtie2_ok_inv in H. cbv zeta in H.
  destruct H as (st1 & E1 & Hfs & _ & Hcr).
  destruct (bowtie2_index_ok _ _ _ _ _ _ _ E1) as (_ & _ & Hsup & Hcr1 & _).
  pose proof (map_index_file_not_bam out) as Hb.
  destruct (unsorted_not_bam out) as [Hub _].
  assert (Hc1 : exists c1, created st1 = (created st ++ c1)%list /\
                           forall f, f ∈ c1 -> f ∈ bt2_files (out +s+ ".map_index")).
  { destruct Hcr1 as [Hc|Hc]; rewrite Hc.
    - exists []. rewrite app_nil_r. split; [reflexivity|].
      intros f Hf. by apply elem_of_nil in Hf.
    - eexists. split; [reflexivity|]. auto. }
  destruct Hc1 as (c1 & Hc1 & Hc1b).
  assert (Hclean : forall f, f ∈ ((if clean_index o then bt2_files (out +s+ ".map_index") else [])
                      ++ (if sort o then [if sort o then out +s+ ".unsorted.bam" else out +s+ ".bam"]
                          else []))%list ->
                   f ∈ bt2_files (out +s+ ".map_index") \/ f = out +s+ ".unsorted.bam").
  { intros f. rewrite elem_of_app.
    destruct (clean_index o), (sort o); rewrite ?list_elem_of_singleton, ?elem_of_nil; tauto. }
  rewrite Hfs, Hcr, Hc1, <- app_assoc. split; [|eexists; split; [reflexivity|]].
  - rewrite elem_of_difference, elem_of_list_to_set. split.
    + destruct (sort o); set_solver.
    + intros Hf. destruct (Hclean _ Hf) as [Hf'|Hf'].
      * destruct (Hb _ Hf') as [Hn _]. exact (Hn eq_refl).
      * exact (Hub (eq_sym Hf')).
  - destruct (sort o); cbv iota; rewrite !elem_of_app, ?list_elem_of_singleton;
      rewrite ?elem_of_cons, ?elem_of_nil.
    + split; [tauto|]. split; [tauto|].
      rewrite elem_of_difference, elem_of_list_to_set, elem_of_app,
        list_elem_of_singleton. tauto.
    + split; [tauto|]. split.
      * intros [Hx|[Hx|[]]]; [|exact (Hub Hx)].
        destruct (Hb _ (Hc1b _ Hx)) as (_ & Hn & _). exact (Hn eq_refl).
      * intros Hn Hx. apply elem_of_difference in Hx as [Hx _].
        assert (Hnb : (out +s+ ".unsorted.bam") ∉
                      (list_to_set (bt2_files (out +s+ ".map_index")) : gset string)).
        { rewrite elem_of_list_to_set. intros Hy. destruct (Hb _ Hy) as (_ & Hy' & _).
          exact (Hy' eq_refl). }
        set_solver.
Qed.
End RunClaims.

(** ** Concrete runs *)

Definition all_ok : string -> bool := fun _ => true.

Definition sorted_opts : RunOpts :=
  mkRunOpts 3 1000 true "samtools" "bowtie2" "very-sensitive-local" true true.

Definition plain_opts : RunOpts :=
  mkRunOpts 1 1000 false "samtools" "bowtie2" "very-sensitive-local" false false.

Definition sorted_final : St :=
  Eval vm_compute in
    match run_bowtie2 all_ok "r1.fq" "r2.fq" "ref.fa" "out" sorted_opts st0 with
    | inr (_, st) => st
    | inl _ => st0
    end.

Definition plain_final : St :=
  Eval vm_compute in
    match run_bowtie2 all_ok "r1.fq" "r2.fq" "ref.fa" "out" plain_opts st0 with
    | inr (_, st) => st
    | inl _ => st0
    end.

Definition idx_present : St := mkSt (list_to_set (bt2_files "idx")) [] [].

Lemma bowtie2_index_all_present_noop_witness :
  (forall f, f ∈ bt2_files "idx" -> f ∈ fs idx_present) /\
  bowtie2_index (fun _ => false) "ref.fa" "idx" "bowtie2" idx_present = inr (tt, idx_present).
Proof.
  assert (Hall : forall f, f ∈ bt2_files "idx" -> f ∈ fs idx_present).
  { intros f Hf. unfold idx_present; cbn [fs]. apply elem_of_list_to_set. exact Hf. }
  split; [exact Hall|].
  exact (bowtie2_index_all_present_noop (fun _ => false) "ref.fa" "idx" "bowtie2"
           idx_present Hall).
Defined.

Lemma bowtie2_index_missing_builds_witness :
  (exists f, f ∈ bt2_files "idx" /\ f ∉ fs st0) /\
  bt2_files "idx" = ["idx.1.bt2"; "idx.2.bt2"; "idx.3.bt2"; "idx.4.bt2";
                     "idx.rev.1.bt2"; "idx.rev.2.bt2"] /\
  match bowtie2_index all_ok "ref.fa" "idx" "bowtie2" st0 with
  | inr (_, st') => log st' = (log st0 ++ ["bowtie2-build -q ref.fa idx"])%list
  | inl e => e = SyscallError "bowtie2-build -q ref.fa idx"
  end.
Proof.
  assert (Hmiss : exists f, f ∈ bt2_files "idx" /\ f ∉ fs st0).
  { exists "idx.1.bt2". split; [left | apply not_elem_of_empty]. }
  split; [exact Hmiss|].
  exact (bowtie2_index_missing_builds all_ok "ref.fa" "idx" "bowtie2" st0 Hmiss).
Defined.

Lemma run_bowtie2_sort_then_index_witness :
  (1 <= threads sorted_opts)%Z /\ sort sorted_opts = true /\
  run_bowtie2 all_ok "r1.fq" "r2.fq" "ref.fa" "out" sorted_opts st0 = inr (tt, sorted_final) /\
  exists pre,
    log sorted_final = (log st0 ++ pre ++
      ["samtools" +s+ " sort -@" +s+ py_str (Z.min 4 3) +s+
       " -m" +s+ py_str (500 / Z.min 4 3) +s+ "M -o " +s+ "out" +s+
       ".bam -O bam -T " +s+ "out" +s+ ".tmp.samtool_sort " +s+ "out" +s+ ".unsorted.bam";
       "samtools" +s+ " index " +s+ "out" +s+ ".bam"])%list.
Proof.
  assert (Ht : (1 <= threads sorted_opts)%Z) by (simpl; lia).
  assert (Hs : sort sorted_opts = true) by reflexivity.
  assert (Hr : run_bowtie2 all_ok "r1.fq" "r2.fq" "ref.fa" "out" sorted_opts st0 =
               inr (tt, sorted_final)) by (vm_compute; reflexivity).
  split; [exact Ht|]. split; [exact Hs|]. split; [exact Hr|].
  exact (run_bowtie2_sort_then_index all_ok "r1.fq" "r2.fq" "ref.fa" "out" sorted_opts
           st0 sorted_final tt Ht Hs Hr).
Defined.

Lemma run_bowtie2_clean_index_witness :
  run_bowtie2 all_ok "r1.fq" "r2.fq" "ref.fa" "out" sorted_opts st0 = inr (tt, sorted_final) /\
  (forall f, f ∈ bt2_files ("out" +s+ ".map_index") -> f ∉ fs sorted_final).
Proof.
  assert (Hr : run_bowtie2 all_ok "r1.fq" "r2.fq" "ref.fa" "out" sorted_opts st0 =
               inr (tt, sorted_final)) by (vm_compute; reflexivity).
  split; [exact Hr|].
  exact (run_bowtie2_clean_index all_ok "r1.fq" "r2.fq" "ref.fa" "out" sorted_opts
           st0 sorted_final tt Hr).
Defined.

Lemma run_bowtie2_bam_paths_witness :
  run_bowtie2 all_ok "r1.fq" "r2.fq" "ref.fa" "out" plain_opts st0 = inr (tt, plain_final) /\
  "out" +s+ ".bam" ∈ fs plain_final /\
  exists w, created plain_final = (created st0 ++ w)%list /\ "out" +s+ ".bam" ∈ w /\
    (("out" +s+ ".unsorted.bam") ∉ w) /\
    (("out" +s+ ".unsorted.bam") ∉ fs st0 -> ("out" +s+ ".unsorted.bam") ∉ fs plain_final).
Proof.
  assert (Hr : run_bowtie2 all_ok "r1.fq" "r2.fq" "ref.fa" "out" plain_opts st0 =
               inr (tt, plain_final)) by (vm_compute; reflexivity).
  split; [exact Hr|].
  exact (run_bowtie2_bam_paths all_ok "r1.fq" "r2.fq" "ref.fa" "out" plain_opts
           st0 plain_final tt Hr).
Defined.

Example sort_thread_mem_table :
  py_int_true_div 500 (Z.min 4 1) = Some 500%Z /\
  py_int_true_div 500 (Z.min 4 2) = Some 250%Z /\
  py_int_true_div 500 (Z.min 4 3) = Some 166%Z /\
  py_int_true_div 500 (Z.min 4 16) = Some 125%Z.
Proof. repeat split. Qed.

(* ================================================================== *)
(** * Further properties of the module *)

(** ** [sam_to_fastq] *)

Lemma str_length_list (s : string) :
  String.length s = length (list_ascii_of_string s).
Proof. induction s as [|c s IH]; simpl; congruence. Qed.

Lemma str_eq_list (a b : string) :
  list_ascii_of_string a = list_ascii_of_string b -> a = b.
Proof.
  intros H. rewrite <- (string_of_list_ascii_of_string a),
    <- (string_of_list_ascii_of_string b), H. reflexivity.
Qed.

Lemma revcomp_table_involutive (c : ascii) :
  Pyfastaq.revcomp_table (Pyfastaq.revcomp_table c) = c.
Proof. destruct c as [[] [] [] [] [] [] [] []]; reflexivity. Qed.

(** Every record that [sam_to_fastq] converts keeps its length: the FASTQ
    sequence and quality strings have the lengths of the stored ones, on
    either strand. *)
Theorem sam_to_fastq_lengths (s : AlignedSegment) :
  match sam_to_fastq s with
  | inr fq => option_map String.length (Pyfastaq.fq_seq fq) = option_map String.length (seq s) /\
              option_map String.length (Pyfastaq.fq_qual fq) = option_map String.length (qual s)
  | inl _ => True
  end.
Proof.
  unfold sam_to_fastq, decode, Pyfastaq.fastq, Pyfastaq.revcomp.
  destruct (is_read1 s); [|destruct (is_read2 s); [|exact I]];
  (destruct (seq s) as [x|], (qual s) as [y|]; [destruct (Nat.eqb _ _)| | |]; try exact I;
   destruct (is_reverse s); cbn; try exact I;
   rewrite ?str_length_list, ?reverse_list, ?translate_list, ?length_rev, ?length_map;
   split; reflexivity).
Qed.

(** Undoing the strand conversion recovers the record as stored: for a
    reverse-strand record, reverse-complementing the output of
    [sam_to_fastq] again gives back the stored sequence and qualities; for
    a forward-strand record the output already carries them. *)
Theorem sam_to_fastq_strand_roundtrip (s : AlignedSegment) :
  match sam_to_fastq s with
  | inr fq =>
      if N.testbit (flag s) 4
      then Pyfastaq.revcomp fq = inr (Pyfastaq.mkFastq (Pyfastaq.id fq) (seq s) (qual s))
      else Pyfastaq.fq_seq fq = seq s /\ Pyfastaq.fq_qual fq = qual s
  | inl _ => True
  end.
Proof.
  unfold sam_to_fastq, decode, Pyfastaq.fastq. rewrite <- is_reverse_bit.
  destruct (is_read1 s); [|destruct (is_read2 s); [|exact I]];
  (destruct (seq s) as [x|], (qual s) as [y|]; [destruct (Nat.eqb _ _)| | |]; try exact I;
   destruct (is_reverse s); unfold Pyfastaq.revcomp; cbn; try exact I; try (split; reflexivity);
   do 3 f_equal; apply str_eq_list;
   rewrite ?reverse_list, ?translate_list, ?reverse_list, ?translate_list,
     ?map_rev, ?rev_involutive, ?map_map;
   try reflexivity;
   rewrite <- (map_id (list_ascii_of_string x)) at 2;
   apply map_ext, revcomp_table_involutive).
Qed.

(** The conversion reads nothing of the flag but the three bits it tests
    (first of pair, second of pair, reverse strand), and nothing of the
    record but its name, bases and qualities: records that agree there give
    the same result, whatever their other flag bits (unmapped, secondary,
    ...) and tags. *)
Theorem sam_to_fastq_reads_only (s1 s2 : AlignedSegment)
    (Hn : qname s1 = qname s2) (Hs : seq s1 = seq s2) (Hq : qual s1 = qual s2)
    (H4 : N.testbit (flag s1) 4 = N.testbit (flag s2) 4)
    (H6 : N.testbit (flag s1) 6 = N.testbit (flag s2) 6)
    (H7 : N.testbit (flag s1) 7 = N.testbit (flag s2) 7) :
  sam_to_fastq s1 = sam_to_fastq s2.
Proof.
  unfold sam_to_fastq.
  rewrite !is_read1_bit, !is_read2_bit, !is_reverse_bit, H4, H6, H7, Hn, Hs, Hq.
  reflexivity.
Qed.

Lemma sam_to_fastq_reads_only_witness :
  sam_to_fastq (mkSeg "r" 99 (Some "ACG") (Some "III") [("AS", TInt 7)]) =
  sam_to_fastq (mkSeg "r" 73 (Some "ACG") (Some "III") [("NM", TStr "x")]).
Proof.
  apply sam_to_fastq_reads_only; reflexivity.
Defined.

(** ** [bowtie2_index] and [run_bowtie2] *)

Lemma map_pipeline_line (b : string) (t mi : Z) (preset idx fwd rev : string) (rbu : bool)
    (s ref ibam : string) :
  cmd_line (MapPipeline b t mi preset idx fwd rev rbu s ref ibam) =
  b +s+ " --threads " +s+ py_str t +s+ " --reorder --" +s+ preset +s+ " -X " +s+
  py_str mi +s+ " -x " +s+ idx +s+ " -1 " +s+ fwd +s+ " -2 " +s+ rev +s+
  (if rbu then " " +s+ awk_filter_program else "") +s+ " | " +s+ s +s+
  " view -bS -T " +s+ ref +s+ " - > " +s+ ibam.
Proof.
  unfold cmd_line, py_join. destruct rbu; cbn [String.concat app];
  rewrite ?str_append_nil, !str_append_assoc; reflexivity.
Qed.

Lemma bt2_files_NoDup (p : string) : NoDup (bt2_files p).
Proof.
  rewrite bt2_files_literal.
  repeat (apply NoDup_cons; split); [| | | | | | apply NoDup_nil_2];
  rewrite ?elem_of_cons, ?elem_of_nil;
  intros Hx; repeat destruct Hx as [Hx|Hx]; try exact Hx; revert Hx;
  apply str_append_neq; discriminate.
Qed.

Lemma unlink_all_succeeds (l : list string) (st : St) :
  NoDup l -> (forall f, f ∈ l -> f ∈ fs st) ->
  exists st', unlink_all l st = inr (tt, st').
Proof.
  revert st. induction l as [|f l IH]; intros st Hnd Hin; simpl.
  - exists st. reflexivity.
  - apply NoDup_cons in Hnd as [Hf Hnd].
    unfold bindM, unlink, path_exists.
    rewrite bool_decide_true by (apply Hin; left).
    apply IH; [exact Hnd|]. intros g Hg. cbn [fs].
    apply elem_of_difference. split.
    + apply Hin. by right.
    + rewrite elem_of_singleton. intros ->. exact (Hf Hg).
Qed.

Section ExtraFacts.

Variable exit_ok : string -> bool.

Lemma syscall_err (c : Cmd) (st : St) (e : PyError) :
  syscall exit_ok c st = inl e -> e = SyscallError (cmd_line c).
Proof. unfold syscall. destruct (exit_ok (cmd_line c)); congruence. Qed.

Lemma syscall_all_ok (c : Cmd) (st : St) (e : PyError) :
  (forall l, exit_ok l = true) -> syscall exit_ok c st <> inl e.
Proof. intros Hok. unfold syscall. rewrite Hok. discriminate. Qed.

Lemma bowtie2_index_err (ref p b : string) (st : St) (e : PyError) :
  bowtie2_index exit_ok ref p b st = inl e -> e = SyscallError (cmd_line (Bowtie2Build b ref p)).
Proof.
  unfold bowtie2_index. destruct (file_missing (bt2_files p) st); cbn [negb];
  [apply syscall_err | discriminate].
Qed.

Lemma bowtie2_index_log (ref p b : string) (st st' : St) (u : unit) :
  bowtie2_index exit_ok ref p b st = inr (u, st') ->
  log st' = (log st ++ (if file_missing (bt2_files p) st
                        then [cmd_line (Bowtie2Build b ref p)] else []))%list.
Proof.
  unfold bowtie2_index. destruct (file_missing (bt2_files p) st); cbn [negb].
  - intros H. apply (syscall_ok exit_ok) in H. apply H.
  - intros [= _ <-]. by rewrite app_nil_r.
Qed.

End ExtraFacts.

Section ExtraRun.

Variable exit_ok : string -> bool.

(** A successful [bowtie2_index] leaves all six index files of its prefix
    in place, removes no file, adds no file but those six, and runs at most
    one command line: the build of the index. *)
Theorem bowtie2_index_postcondition (ref p b : string) (st st' : St) (u : unit)
    (H : bowtie2_index exit_ok ref p b st = inr (u, st')) :
  (forall f, f ∈ bt2_files p -> f ∈ fs st') /\
  fs st ⊆ fs st' /\ fs st' ⊆ fs st ∪ list_to_set (bt2_files p) /\
  (log st' = log st \/ log st' = (log st ++ [b +s+ "-build -q " +s+ ref +s+ " " +s+ p])%list).
Proof.
  destruct (bowtie2_index_ok exit_ok _ _ _ _ _ _ H) as (Hin & Hsub & Hsup & _ & _).
  split; [exact Hin|]. split; [exact Hsub|]. split; [exact Hsup|].
  rewrite (bowtie2_index_log exit_ok _ _ _ _ _ _ H), bowtie2_build_line.
  destruct (file_missing (bt2_files p) st); [right | left; apply app_nil_r]; reflexivity.
Qed.

(** The whole command trace of a successful run: the index build, only
    when one of the six index files of [out.map_index] is missing
    beforehand; then the mapping pipeline, with the awk stage exactly when
    [remove_both_unmapped] is set and writing [out.unsorted.bam] with
    [sort] and [out.bam] without; then, with [sort] only, [samtools sort]
    and [samtools index].  Nothing else is run. *)
Theorem run_bowtie2_command_trace (fwd rev ref out : string) (o : RunOpts)
    (st st' : St) (u : unit)
    (H : run_bowtie2 exit_ok fwd rev ref out o st = inr (u, st')) :
  let ibam := if sort o then out +s+ ".unsorted.bam" else out +s+ ".bam" in
  log st' = (log st ++
    (if file_missing (bt2_files (out +s+ ".map_index")) st
     then [bowtie2 o +s+ "-build -q " +s+ ref +s+ " " +s+ (out +s+ ".map_index")] else []) ++
    [bowtie2 o +s+ " --threads " +s+ py_str (threads o) +s+ " --reorder --" +s+
     bowtie2_preset o +s+ " -X " +s+ py_str (max_insert o) +s+ " -x " +s+
     (out +s+ ".map_index") +s+ " -1 " +s+ fwd +s+ " -2 " +s+ rev +s+
     (if remove_both_unmapped o then " " +s+ awk_filter_program else "") +s+ " | " +s+
     samtools o +s+ " view -bS -T " +s+ ref +s+ " - > " +s+ ibam] ++
    (if sort o then
       [samtools o +s+ " sort -@" +s+ py_str (Z.min 4 (threads o)) +s+ " -m" +s+
        py_str (Z.quot 500 (Z.min 4 (threads o))) +s+ "M -o " +s+ out +s+
        ".bam -O bam -T " +s+ out +s+ ".tmp.samtool_sort " +s+ out +s+ ".unsorted.bam";
        samtools o +s+ " index " +s+ out +s+ ".bam"]
     else []))%list.
Proof.
  apply run_bowtie2_ok_inv in H. cbv zeta in H |- *.
  destruct H as (st1 & E1 & _ & Hlog & _).
  rewrite Hlog, (bowtie2_index_log exit_ok _ _ _ _ _ _ E1), map_pipeline_line,
    bowtie2_build_line.
  destruct (sort o); rewrite ?samtools_sort_line, ?samtools_index_line;
  destruct (file_missing _ st); rewrite <- !app_assoc; reflexivity.
Qed.

(** With [sort] set and [threads = 0], [min(4, threads)] is 0 and
    [int(500/threads)] divides by zero.  The division comes after the
    index step and the mapping pipeline: the run is exactly those two steps
    followed by [ZeroDivisionError], so a failing build or pipeline raises
    its own error first, and when every tool succeeds the run fails with
    [ZeroDivisionError] once the mapping pipeline has been run and logged. *)
Theorem run_bowtie2_sort_zero_threads (fwd rev ref out : string) (o : RunOpts) (st : St)
    (Ht : threads o = 0%Z) (Hs : sort o = true) :
  let map_cmd := MapPipeline (bowtie2 o) (threads o) (max_insert o) (bowtie2_preset o)
                   (out +s+ ".map_index") fwd rev (remove_both_unmapped o) (samtools o) ref
                   (out +s+ ".unsorted.bam") in
  run_bowtie2 exit_ok fwd rev ref out o st =
    (bowtie2_index exit_ok ref (out +s+ ".map_index") (bowtie2 o) ;;;
     syscall exit_ok map_cmd ;;;
     raiseM ZeroDivisionError) st /\
  ((forall l, exit_ok l = true) ->
   run_bowtie2 exit_ok fwd rev ref out o st = inl ZeroDivisionError /\
   exists st2,
     (bowtie2_index exit_ok ref (out +s+ ".map_index") (bowtie2 o) ;;;
      syscall exit_ok map_cmd) st = inr (tt, st2) /\
     exists pre, log st2 = (log st ++ pre ++ [cmd_line map_cmd])%list).
Proof.
  intros map_cmd.
  assert (Hrun : run_bowtie2 exit_ok fwd rev ref out o st =
    (bowtie2_index exit_ok ref (out +s+ ".map_index") (bowtie2 o) ;;;
     syscall exit_ok map_cmd ;;;
     raiseM ZeroDivisionError) st).
  { unfold run_bowtie2, bindM, map_cmd. cbv beta zeta. rewrite Hs, Ht.
    destruct (bowtie2_index exit_ok ref (out +s+ ".map_index") (bowtie2 o) st)
      as [e|[[] st1]]; [reflexivity|].
    match goal with |- context [syscall exit_ok ?c st1] =>
      destruct (syscall exit_ok c st1) as [e|[[] st2]]; [reflexivity|]
    end.
    reflexivity. }
  split; [exact Hrun|]. intros Hok.
  unfold bindM in Hrun |- *.
  destruct (bowtie2_index exit_ok ref (out +s+ ".map_index") (bowtie2 o) st)
    as [e|[[] st1]] eqn:E1.
  { exfalso. unfold bowtie2_index in E1.
    destruct (file_missing _ st); cbn [negb] in E1; [|discriminate].
    exact (syscall_all_ok exit_ok _ _ _ Hok E1). }
  destruct (bowtie2_index_ok exit_ok _ _ _ _ _ _ E1) as (_ & _ & _ & _ & [l1 Hl1]).
  destruct (syscall exit_ok map_cmd st1) as [e|[[] st2]] eqn:E2.
  { exfalso. exact (syscall_all_ok exit_ok _ _ _ Hok E2). }
  destruct (syscall_ok exit_ok _ _ _ _ E2) as (_ & Hl2 & _).
  split; [exact Hrun|]. exists st2. split; [reflexivity|].
  exists l1. rewrite Hl2, Hl1, <- app_assoc. reflexivity.
Qed.

(** In the model, where [os.unlink] fails only on a missing path, the
    errors of a run: those of its own command lines, or the division by
    zero; the deletions at the end never fail, since every file queued for
    deletion exists by then and none is queued twice. *)
Lemma run_bowtie2_error_cases (fwd rev ref out : string) (o : RunOpts) (st : St) :
  let ibam := if sort o then out +s+ ".unsorted.bam" else out +s+ ".bam" in
  match run_bowtie2 exit_ok fwd rev ref out o st with
  | inl e =>
      (e = ZeroDivisionError /\ sort o = true /\ Z.min 4 (threads o) = 0%Z) \/
      exists c, e = SyscallError (cmd_line c) /\
        c ∈ [Bowtie2Build (bowtie2 o) ref (out +s+ ".map_index");
             MapPipeline (bowtie2 o) (threads o) (max_insert o) (bowtie2_preset o)
               (out +s+ ".map_index") fwd rev (remove_both_unmapped o) (samtools o) ref ibam;
             SamtoolsSort (samtools o) (Z.min 4 (threads o))
               (Z.quot 500 (Z.min 4 (threads o))) (out +s+ ".bam") out ibam;
             SamtoolsIndex (samtools o) (out +s+ ".bam")]
  | inr _ => True
  end.
Proof.
  intros ibam. unfold run_bowtie2, bindM. cbv beta zeta. fold ibam.
  destruct (bowtie2_index exit_ok ref (out +s+ ".map_index") (bowtie2 o) st)
    as [e|[[] st1]] eqn:E1.
  { right. eexists. split; [exact (bowtie2_index_err exit_ok _ _ _ _ _ E1)|].
    rewrite elem_of_cons. left. reflexivity. }
  destruct (bowtie2_index_ok exit_ok _ _ _ _ _ _ E1) as (Hin1 & _ & _ & _ & _).
  match goal with |- context [syscall exit_ok ?c st1] =>
    destruct (syscall exit_ok c st1) as [e|[[] st2]] eqn:E2
  end.
  { right. eexists. split; [exact (syscall_err exit_ok _ _ _ E2)|].
    rewrite !elem_of_cons. right. left. reflexivity. }
  destruct (syscall_ok exit_ok _ _ _ _ E2) as (F2 & _ & _).
  assert (Hin2 : forall f, f ∈ bt2_files (out +s+ ".map_index") \/ f = ibam -> f ∈ fs st2).
  { intros f [Hf | ->]; rewrite F2; [apply elem_of_union_l, Hin1, Hf|].
    apply elem_of_union_r. cbn [writes]. apply elem_of_list_to_set. by left. }
  destruct (sort o) eqn:Es.
  - unfold py_int_true_div.
    destruct (Z.eqb (Z.min 4 (threads o)) 0) eqn:Ez.
    { unfold raiseM. left. apply Z.eqb_eq in Ez. auto. }
    match goal with |- context [syscall exit_ok ?c st2] =>
      destruct (syscall exit_ok c st2) as [e|[[] st3]] eqn:E3
    end.
    { right. eexists. split; [exact (syscall_err exit_ok _ _ _ E3)|].
      rewrite !elem_of_cons. right. right. left. reflexivity. }
    destruct (syscall_ok exit_ok _ _ _ _ E3) as (F3 & _ & _).
    match goal with |- context [syscall exit_ok ?c st3] =>
      destruct (syscall exit_ok c st3) as [e|[[] st4]] eqn:E4
    end.
    { right. eexists. split; [exact (syscall_err exit_ok _ _ _ E4)|].
      rewrite !elem_of_cons. right. right. right. left. reflexivity. }
    destruct (syscall_ok exit_ok _ _ _ _ E4) as (F4 & _ & _).
    cbv beta iota. unfold retM.
    destruct (unlink_all_succeeds
                ((if clean_index o then bt2_files (out +s+ ".map_index") else []) ++ [ibam])%list
                st4) as [st5 ->]; [| |exact I].
    + apply NoDup_app. split; [destruct (clean_index o); [apply bt2_files_NoDup | apply NoDup_nil_2]|].
      split; [|apply NoDup_singleton].
      intros f Hf Hf'. apply list_elem_of_singleton in Hf' as ->.
      destruct (clean_index o); [|by apply elem_of_nil in Hf].
      destruct (map_index_file_not_bam out _ Hf) as (_ & Hn & _). exact (Hn eq_refl).
    + intros f Hf. rewrite F4, F3. apply elem_of_union_l, elem_of_union_l, Hin2.
      apply elem_of_app in Hf as [Hf|Hf].
      * destruct (clean_index o); [by left | by apply elem_of_nil in Hf].
      * apply list_elem_of_singleton in Hf. by right.
  - unfold retM.
    destruct (unlink_all_succeeds
                (if clean_index o then bt2_files (out +s+ ".map_index") else []) st2)
      as [st5 ->]; [| |exact I].
    + destruct (clean_index o); [apply bt2_files_NoDup | apply NoDup_nil_2].
    + intros f Hf. apply Hin2. left.
      destruct (clean_index o); [exact Hf | by apply elem_of_nil in Hf].
Qed.

(** The errors a run can raise, whatever else [os.unlink] may raise: never
    [FileNotFoundError], since every file queued for deletion exists when
    it is deleted and none is queued twice; a failed command is one of the
    run's own four command lines (index build, mapping pipeline,
    [samtools sort], [samtools index]), named by its error; and
    [ZeroDivisionError] comes only with [sort] set and
    [min(4, threads) = 0]. *)
Theorem run_bowtie2_errors (fwd rev ref out : string) (o : RunOpts) (st : St) :
  let ibam := if sort o then out +s+ ".unsorted.bam" else out +s+ ".bam" in
  match run_bowtie2 exit_ok fwd rev ref out o st with
  | inl e =>
      (forall f, e <> FileNotFoundError f) /\
      (forall l, e = SyscallError l ->
         exists c, l = cmd_line c /\
           c ∈ [Bowtie2Build (bowtie2 o) ref (out +s+ ".map_index");
                MapPipeline (bowtie2 o) (threads o) (max_insert o) (bowtie2_preset o)
                  (out +s+ ".map_index") fwd rev (remove_both_unmapped o) (samtools o) ref ibam;
                SamtoolsSort (samtools o) (Z.min 4 (threads o))
                  (Z.quot 500 (Z.min 4 (threads o))) (out +s+ ".bam") out ibam;
                SamtoolsIndex (samtools o) (out +s+ ".bam")]) /\
      (e = ZeroDivisionError -> sort o = true /\ Z.min 4 (threads o) = 0%Z)
  | inr _ => True
  end.
Proof.
  intros ibam. pose proof (run_bowtie2_error_cases fwd rev ref out o st) as Hc.
  cbv zeta in Hc. fold ibam in Hc.
  destruct (run_bowtie2 exit_ok fwd rev ref out o st) as [e|]; [|exact I].
  destruct Hc as [(-> & Hs & Hz) | (c & -> & Hin)].
  - split; [intros f; discriminate|]. split; [intros l; discriminate|]. auto.
  - split; [intros f; discriminate|]. split; [|discriminate].
    intros l [= <-]. exists c. auto.
Qed.

(** A successful run deletes no file but the six index files of
    [out.map_index] and [out.unsorted.bam]: the reads, the reference and
    every other file present before the run are still there after it. *)
Theorem run_bowtie2_keeps_other_files (fwd rev ref out : string) (o : RunOpts)
    (st st' : St) (u : unit) (f : string)
    (H : run_bowtie2 exit_ok fwd rev ref out o st = inr (u, st'))
    (Hf : f ∈ fs st)
    (Hidx : f ∉ bt2_files (out +s+ ".map_index"))
    (Hu : f <> out +s+ ".unsorted.bam") :
  f ∈ fs st'.
Proof.
  apply run_bowtie2_ok_inv in H. cbv zeta in H.
  destruct H as (st1 & E1 & Hfs & _ & _).
  destruct (bowtie2_index_ok exit_ok _ _ _ _ _ _ E1) as (_ & Hsub & _ & _ & _).
  rewrite Hfs, elem_of_difference, elem_of_list_to_set, elem_of_app. split.
  - apply elem_of_union_l, elem_of_union_l, Hsub, Hf.
  - destruct (clean_index o), (sort o); rewrite ?list_elem_of_singleton, ?elem_of_nil;
    intuition.
Qed.

(** With [sort] set, a successful run leaves the companion index
    [out.bam.bai] written by [samtools index]: it is not among the files
    the run deletes. *)
Theorem run_bowtie2_sort_bai (fwd rev ref out : string) (o : RunOpts)
    (st st' : St) (u : unit)
    (H : run_bowtie2 exit_ok fwd rev ref out o st = inr (u, st'))
    (Hs : sort o = true) :
  (out +s+ ".bam") +s+ ".bai" ∈ fs st'.
Proof.
  apply run_bowtie2_ok_inv in H. cbv zeta in H. rewrite Hs in H.
  destruct H as (st1 & _ & Hfs & _ & _).
  rewrite Hfs, elem_of_difference, elem_of_list_to_set, elem_of_app. split.
  - apply elem_of_union_r, elem_of_union_r, elem_of_singleton. reflexivity.
  - destruct (unsorted_not_bam out) as [_ Hub].
    rewrite list_elem_of_singleton. intros [Hx|Hx].
    + destruct (clean_index o); [|by apply elem_of_nil in Hx].
      destruct (map_index_file_not_bam out _ Hx) as (_ & _ & Hn). exact (Hn eq_refl).
    + exact (Hub (eq_sym Hx)).
Qed.

(** Index reuse across runs: after a successful run without
    [clean_index], a later [bowtie2_index] on the same prefix
    [out.map_index] finds all six files and does nothing; after a run with
    [clean_index], it has to run the build again. *)
Theorem run_bowtie2_index_reuse (fwd rev ref out : string) (o : RunOpts)
    (st st' : St) (u : unit) (ref' b' : string)
    (H : run_bowtie2 exit_ok fwd rev ref out o st = inr (u, st')) :
  bowtie2_index exit_ok ref' (out +s+ ".map_index") b' st' =
  if clean_index o then syscall exit_ok (Bowtie2Build b' ref' (out +s+ ".map_index")) st'
  else inr (tt, st').
Proof.
  apply run_bowtie2_ok_inv in H. cbv zeta in H.
  destruct H as (st1 & E1 & Hfs & _ & _).
  destruct (bowtie2_index_ok exit_ok _ _ _ _ _ _ E1) as (Hin & _ & _ & _ & _).
  unfold bowtie2_index.
  destruct (clean_index o) eqn:Ec.
  - assert (Hm : file_missing (bt2_files (out +s+ ".map_index")) st' = true).
    { apply file_missing_true_iff.
      exists ((out +s+ ".map_index") +s+ ".1.bt2"). split.
      - rewrite bt2_files_literal. by left.
      - rewrite Hfs, elem_of_difference, elem_of_list_to_set, elem_of_app.
        intros [_ Hn]. apply Hn. left. rewrite bt2_files_literal. by left. }
    rewrite Hm. reflexivity.
  - destruct (file_missing (bt2_files (out +s+ ".map_index")) st') eqn:Hm; [|reflexivity].
    exfalso. apply file_missing_true in Hm as (f & Hf & Hn). apply Hn.
    rewrite Hfs, elem_of_difference, elem_of_list_to_set, elem_of_app. split.
    + apply elem_of_union_l, elem_of_union_l, Hin, Hf.
    + destruct (map_index_file_not_bam out f Hf) as (_ & Hu & _).
      destruct (sort o); rewrite ?list_elem_of_singleton, ?elem_of_nil; intuition.
Qed.

End ExtraRun.

(** ** Concrete runs for the properties above *)

Definition idx_built : St :=
  Eval vm_compute in
    match bowtie2_index all_ok "ref.fa" "idx" "bowtie2" st0 with
    | inr (_, st) => st
    | inl _ => st0
    end.

Definition inputs_st : St := mkSt (list_to_set ["r1.fq"; "r2.fq"; "ref.fa"]) [] [].

Definition inputs_final : St :=
  Eval vm_compute in
    match run_bowtie2 all_ok "r1.fq" "r2.fq" "ref.fa" "out" sorted_opts inputs_st with
    | inr (_, st) => st
    | inl _ => st0
    end.

Definition zero_thread_opts : RunOpts :=
  mkRunOpts 0 1000 true "samtools" "bowtie2" "very-sensitive-local" false true.

Lemma bowtie2_index_postcondition_witness :
  bowtie2_index all_ok "ref.fa" "idx" "bowtie2" st0 = inr (tt, idx_built) /\
  (forall f, f ∈ bt2_files "idx" -> f ∈ fs idx_built).
Proof.
  assert (Hr : bowtie2_index all_ok "ref.fa" "idx" "bowtie2" st0 = inr (tt, idx_built))
    by (vm_compute; reflexivity).
  split; [exact Hr|].
  exact (proj1 (bowtie2_index_postcondition all_ok "ref.fa" "idx" "bowtie2" st0 idx_built tt Hr)).
Defined.

Lemma run_bowtie2_command_trace_witness :
  run_bowtie2 all_ok "r1.fq" "r2.fq" "ref.fa" "out" sorted_opts st0 = inr (tt, sorted_final) /\
  log sorted_final =
    ["bowtie2-build -q ref.fa out.map_index";
     "bowtie2 --threads 3 --reorder --very-sensitive-local -X 1000 -x out.map_index" +s+
     " -1 r1.fq -2 r2.fq " +s+ awk_filter_program +s+
     " | samtools view -bS -T ref.fa - > out.unsorted.bam";
     "samtools sort -@3 -m166M -o out.bam -O bam -T out.tmp.samtool_sort out.unsorted.bam";
     "samtools index out.bam"].
Proof.
  assert (Hr : run_bowtie2 all_ok "r1.fq" "r2.fq" "ref.fa" "out" sorted_opts st0 =
               inr (tt, sorted_final)) by (vm_compute; reflexivity).
  split; [exact Hr|].
  refine (eq_trans (run_bowtie2_command_trace all_ok "r1.fq" "r2.fq" "ref.fa" "out"
                      sorted_opts st0 sorted_final tt Hr) _).
  vm_compute. reflexivity.
Defined.

Lemma run_bowtie2_sort_zero_threads_witness :
  threads zero_thread_opts = 0%Z /\ sort zero_thread_opts = true /\
  run_bowtie2 all_ok "r1.fq" "r2.fq" "ref.fa" "out" zero_thread_opts st0 =
    inl ZeroDivisionError /\
  run_bowtie2 (fun l => negb (String.eqb l "bowtie2-build -q ref.fa out.map_index"))
    "r1.fq" "r2.fq" "ref.fa" "out" zero_thread_opts st0 =
    inl (SyscallError "bowtie2-build -q ref.fa out.map_index").
Proof.
  assert (Ht : threads zero_thread_opts = 0%Z) by reflexivity.
  assert (Hs : sort zero_thread_opts = true) by reflexivity.
  split; [exact Ht|]. split; [exact Hs|]. split.
  - apply (proj2 (run_bowtie2_sort_zero_threads all_ok "r1.fq" "r2.fq" "ref.fa" "out"
                    zero_thread_opts st0 Ht Hs)).
    intros l. reflexivity.
  - rewrite (proj1 (run_bowtie2_sort_zero_threads
                      (fun l => negb (String.eqb l "bowtie2-build -q ref.fa out.map_index"))
                      "r1.fq" "r2.fq" "ref.fa" "out" zero_thread_opts st0 Ht Hs)).
    vm_compute. reflexivity.
Defined.

Lemma run_bowtie2_keeps_other_files_witness :
  run_bowtie2 all_ok "r1.fq" "r2.fq" "ref.fa" "out" sorted_opts inputs_st =
    inr (tt, inputs_final) /\
  "ref.fa" ∈ fs inputs_st /\ ("ref.fa" ∉ bt2_files ("out" +s+ ".map_index")) /\
  ("ref.fa" <> "out" +s+ ".unsorted.bam") /\
  "ref.fa" ∈ fs inputs_final.
Proof.
  assert (Hr : run_bowtie2 all_ok "r1.fq" "r2.fq" "ref.fa" "out" sorted_opts inputs_st =
               inr (tt, inputs_final)) by (vm_compute; reflexivity).
  assert (Hf : "ref.fa" ∈ fs inputs_st).
  { unfold inputs_st; cbn [fs]. apply elem_of_list_to_set. right. right. left. }
  assert (Hi : "ref.fa" ∉ bt2_files ("out" +s+ ".map_index")).
  { rewrite bt2_files_literal, !elem_of_cons, elem_of_nil.
    intros Hx; repeat destruct Hx as [Hx|Hx]; try exact Hx; discriminate. }
  assert (Hu : "ref.fa" <> "out" +s+ ".unsorted.bam") by discriminate.
  split; [exact Hr|]. split; [exact Hf|]. split; [exact Hi|]. split; [exact Hu|].
  exact (run_bowtie2_keeps_other_files all_ok "r1.fq" "r2.fq" "ref.fa" "out" sorted_opts
           inputs_st inputs_final tt "ref.fa" Hr Hf Hi Hu).
Defined.

Lemma run_bowtie2_sort_bai_witness :
  run_bowtie2 all_ok "r1.fq" "r2.fq" "ref.fa" "out" sorted_opts st0 = inr (tt, sorted_final) /\
  sort sorted_opts = true /\
  ("out" +s+ ".bam") +s+ ".bai" ∈ fs sorted_final.
Proof.
  assert (Hr : run_bowtie2 all_ok "r1.fq" "r2.fq" "ref.fa" "out" sorted_opts st0 =
               inr (tt, sorted_final)) by (vm_compute; reflexivity).
  assert (Hs : sort sorted_opts = true) by reflexivity.
  split; [exact Hr|]. split; [exact Hs|].
  exact (run_bowtie2_sort_bai all_ok "r1.fq" "r2.fq" "ref.fa" "out" sorted_opts
           st0 sorted_final tt Hr Hs).
Defined.

Lemma run_bowtie2_index_reuse_witness :
  run_bowtie2 all_ok "r1.fq" "r2.fq" "ref.fa" "out" plain_opts st0 = inr (tt, plain_final) /\
  bowtie2_index all_ok "ref.fa" ("out" +s+ ".map_index") "bowtie2" plain_final =
    inr (tt, plain_final).
Proof.
  assert (Hr : run_bowtie2 all_ok "r1.fq" "r2.fq" "ref.fa" "out" plain_opts st0 =
               inr (tt, plain_final)) by (vm_compute; reflexivity).
  split; [exact Hr|].
  exact (run_bowtie2_index_reuse all_ok "r1.fq" "r2.fq" "ref.fa" "out" plain_opts
           st0 plain_final tt "ref.fa" "bowtie2" Hr).
Defined.
